(** * owui-currency-tool: the currency converter tool of [tool.py]

    A shallow embedding of [Direction], [Tools.Valves], [Tools.__init__]
    and [Tools.convert].  The [currency_converter] package the tool calls
    into is external: it is a parameter of the development, and every call
    the tool makes into it is recorded in a call log, so that statements
    can speak about which provider was built and with which arguments. *)

From Stdlib Require Import PrimFloat.
From Stdlib Require Import String Ascii List ZArith QArith Bool.
Import ListNotations.
Open Scope string_scope.

(** ** Python data *)

(** [class Direction(Enum)]: [A_TO_B = 0], [B_TO_A = 1]. *)
Inductive Direction : Type :=
| A_TO_B
| B_TO_A.

Definition Direction_value (d : Direction) : Z :=
  match d with
  | A_TO_B => 0
  | B_TO_A => 1
  end.

(** [Direction.__eq__]: members are equal when they are the same member. *)
Definition Direction_eqb (d1 d2 : Direction) : bool :=
  match d1, d2 with
  | A_TO_B, A_TO_B => true
  | B_TO_A, B_TO_A => true
  | _, _ => false
  end.

(** [datetime.date]: the tool only tests it against [None] and hands it on. *)
Record date : Type := mkdate { year : Z; month : Z; day : Z }.

(** [class Valves(BaseModel)]: one field, [default_currency: str = Field("")]. *)
Record Valves : Type := mkValves { default_currency : string }.

(** [Valves()]: every field takes its declared default. *)
Definition Valves_init : Valves := {| default_currency := "" |}.

(** [class Tools]: the only attribute is [self.valves]. *)
Record Tools : Type := mkTools { valves : Valves }.

(** [Tools.__init__]: [self.valves = self.Valves()]. *)
Definition Tools_init : Tools := {| valves := Valves_init |}.

(** A raised Python exception, as far as the tool can observe it: whether
    it is an instance of [Exception] (what [except Exception] tests), and
    how [str(e)] ends: it returns a text, or [e.__str__] raises in turn. *)
Inductive exn : Type :=
| mkexn (instance_of_Exception : bool) (str_ends : str_result)
with str_result : Type :=
| StrReturns (text : string)
| StrRaises (raised : exn).

(** [isinstance(e, Exception)] *)
Definition is_Exception (e : exn) : bool :=
  match e with
  | mkexn b _ => b
  end.

(** How a Python call ends: it returns a value or raises. *)
Inductive outcome (A : Type) : Type :=
| Normal (a : A)
| Raised (e : exn).
Arguments Normal {A} a.
Arguments Raised {A} e.

(** [str(e)] *)
Definition exn_str (e : exn) : outcome string :=
  match e with
  | mkexn _ (StrReturns text) => Normal text
  | mkexn _ (StrRaises e') => Raised e'
  end.

(** The positional argument given to [CurrencyConverter(...)]: the tool
    passes either a URL string or a [datetime.date] object. *)
Inductive pyarg : Type :=
| ArgStr (s : string)
| ArgDate (d : date).

Definition nl : string := String (ascii_of_nat 10) EmptyString.

Section Converter.

(** The type of the numbers the provider computes with (Python [float];
    the tool never inspects them) and of provider objects. *)
Variables number handle : Type.

(** What [from currency_converter import CurrencyConverter, ECB_URL,
    SINGLE_DAY_ECB_URL] brings in.  [CurrencyConverter_convert c amount
    currency new_currency date] is [c.convert(amount, currency,
    new_currency)] when [date] is [None] and
    [c.convert(amount, currency, new_currency, date=d)] for [Some d]. *)
Record currency_converter : Type := mk_currency_converter {
  ECB_URL : string;
  SINGLE_DAY_ECB_URL : string;
  CurrencyConverter : pyarg -> outcome handle;
  CurrencyConverter_convert :
    handle -> number -> string -> string -> option date -> outcome number
}.

Variable lib : currency_converter.

(** What [Tools.convert] can hand back: a [str] or the provider's number. *)
Inductive pyval : Type :=
| PyStr (s : string)
| PyNum (x : number).

(** A call into the external package. *)
Inductive call : Type :=
| Construct (arg : pyarg)
| Convert (c : handle) (amount : number) (currency new_currency : string)
          (on : option date).

(** The state a call runs in: the [Tools] object and the log of calls
    made into the package so far (oldest first). *)
Record state : Type := mkstate { self : Tools; calls : list call }.

Definition M (A : Type) : Type := state -> outcome A * state.

Definition ret {A : Type} (a : A) : M A := fun s => (Normal a, s).

Definition bind {A B : Type} (m : M A) (k : A -> M B) : M B :=
  fun s =>
    match m s with
    | (Normal a, s') => k a s'
    | (Raised e, s') => (Raised e, s')
    end.

(** [try: body except Exception as e: handler e]; an exception that is
    not an instance of [Exception] is not caught. *)
Definition try_except {A : Type} (body : M A) (handler : exn -> M A) : M A :=
  fun s =>
    match body s with
    | (Normal a, s') => (Normal a, s')
    | (Raised e, s') =>
        if is_Exception e then handler e s' else (Raised e, s')
    end.

(** [str(e)], as a step of the call. *)
Definition py_str (e : exn) : M string := fun s => (exn_str e, s).

(** [self.valves] *)
Definition get_valves : M Valves := fun s => (Normal (valves (self s)), s).

(** [self.valves.default_currency = v], as the host's settings do it. *)
Definition set_default_currency (v : string) : M unit :=
  fun s =>
    (Normal tt,
     {| self := {| valves := {| default_currency := v |} |};
        calls := calls s |}).

Definition log (c : call) (s : state) : state :=
  {| self := self s; calls := calls s ++ [c] |}.

(** [CurrencyConverter(arg)] *)
Definition new_CurrencyConverter (arg : pyarg) : M handle :=
  fun s => (CurrencyConverter lib arg, log (Construct arg) s).

(** [c.convert(amount, currency, new_currency[, date=date])] *)
Definition call_convert (c : handle) (amount : number)
           (currency new_currency : string) (on : option date) : M number :=
  fun s =>
    (CurrencyConverter_convert lib c amount currency new_currency on,
     log (Convert c amount currency new_currency on) s).

Definition no_default_msg : string :=
  "Error: No default currency set. Either set a default currency or specify two currency codes.".

Definition init_failed_msg : string :=
  "Error: Problem initializing conversion utility." ++ nl ++
  "===============================================" ++ nl.

Definition convert_failed_msg : string :=
  "Error: Problem converting currency." ++ nl ++
  "===================================" ++ nl.

(** Lines 88-91: [inl] is the early [return] of the error string, [inr]
    the value of [b_currency_code] after the [if]. *)
Definition resolve_b (v : Valves) (b_currency_code : option string)
  : string + string :=
  match b_currency_code with
  | None =>
      if String.eqb (default_currency v) "" then inl no_default_msg
      else inr (default_currency v)
  | Some b => inr b
  end.

(** Lines 94-97: the argument of the constructor call. *)
Definition constructor_arg (date : option date) : pyarg :=
  match date with
  | None => ArgStr (SINGLE_DAY_ECB_URL lib)
  | Some d => ArgDate d
  end.

(** Lines 103-110: [(source_code, target_code)]. *)
Definition resolve_codes (direction : Direction)
           (a_currency_code b_currency_code : string) : string * string :=
  if Direction_eqb direction A_TO_B
  then (a_currency_code, b_currency_code)
  else (b_currency_code, a_currency_code).

(** [Tools.convert].  In the first [try], [inl] is the [return] inside
    the handler and [inr] falls through with [c] bound. *)
Definition convert (direction : Direction) (source_amount : number)
           (a_currency_code : string) (b_currency_code : option string)
           (date : option date) : M pyval :=
  bind get_valves (fun v =>
  match resolve_b v b_currency_code with
  | inl msg => ret (PyStr msg)
  | inr b_currency_code =>
      bind (try_except
              (bind (new_CurrencyConverter (constructor_arg date))
                    (fun c => ret (inr c)))
              (fun e => bind (py_str e) (fun cause =>
                        ret (inl (PyStr (init_failed_msg ++ cause))))))
           (fun r =>
      match r with
      | inl v => ret v
      | inr c =>
          let '(source_code, target_code) :=
            resolve_codes direction a_currency_code b_currency_code in
          try_except
            (bind (call_convert c source_amount source_code target_code date)
                  (fun x => ret (PyNum x)))
            (fun e => bind (py_str e) (fun cause =>
                      ret (PyStr (convert_failed_msg ++ cause))))
      end)
  end).

(** What [except Exception as e: return msg + str(e)] makes of a raised
    [e]: an [e] that is not an instance of [Exception] goes on, a caught
    one gives the message, unless [str(e)] raises, and then that goes on. *)
Definition except_return (msg : string) (e : exn) (s : state)
  : outcome pyval * state :=
  if is_Exception e
  then match exn_str e with
       | Normal cause => (Normal (PyStr (msg ++ cause)), s)
       | Raised e' => (Raised e', s)
       end
  else (Raised e, s).

(** Lines 92-120 read as one case analysis on how the constructor call
    and the conversion call end; [convert_unfold] below shows that
    [convert] runs exactly like this once [b_currency_code] is resolved. *)
Definition convert_resolved (direction : Direction) (source_amount : number)
           (a_currency_code b_currency_code : string) (date : option date)
           (s : state) : outcome pyval * state :=
  let arg := constructor_arg date in
  let s1 := log (Construct arg) s in
  match CurrencyConverter lib arg with
  | Raised e => except_return init_failed_msg e s1
  | Normal c =>
      let src := fst (resolve_codes direction a_currency_code b_currency_code) in
      let tgt := snd (resolve_codes direction a_currency_code b_currency_code) in
      let s2 := log (Convert c source_amount src tgt date) s1 in
      match CurrencyConverter_convert lib c source_amount src tgt date with
      | Normal x => (Normal (PyNum x), s2)
      | Raised e => except_return convert_failed_msg e s2
      end
  end.

(** The calls a resolved run adds to the log. *)
Definition calls_made (direction : Direction) (source_amount : number)
           (a_currency_code b_currency_code : string) (date : option date)
  : list call :=
  Construct (constructor_arg date) ::
  match CurrencyConverter lib (constructor_arg date) with
  | Normal c =>
      [Convert c source_amount
               (fst (resolve_codes direction a_currency_code b_currency_code))
               (snd (resolve_codes direction a_currency_code b_currency_code))
               date]
  | Raised _ => []
  end.

End Converter.

Arguments PyStr {number} s.
Arguments PyNum {number} x.
Arguments Construct {number handle} arg.
Arguments Convert {number handle} c amount currency new_currency on.
Arguments mkstate {number handle} self calls.
Arguments self {number handle} s.
Arguments calls {number handle} s.
Arguments ECB_URL {number handle} c.
Arguments SINGLE_DAY_ECB_URL {number handle} c.
Arguments CurrencyConverter {number handle} c arg.
Arguments CurrencyConverter_convert {number handle} c h amount currency new_currency on.
Arguments convert {number handle} lib direction source_amount a_currency_code b_currency_code date s.
Arguments set_default_currency {number handle} v s.
Arguments constructor_arg {number handle} lib date.
Arguments convert_resolved {number handle} lib direction source_amount a_currency_code b_currency_code date s.
Arguments log {number handle} c s.
Arguments except_return {number handle} msg e s.
Arguments calls_made {number handle} lib direction source_amount a_currency_code b_currency_code date.

(** ** Reading results *)

(** [s.startswith("Error:")] *)
Definition starts_with_Error (s : string) : bool := String.prefix "Error:" s.


(** ** Stub providers

    Exact rational arithmetic stands for the provider's numbers; a provider
    object remembers the argument it was built with. *)

Definition stub_ECB_URL : string :=
  "https://www.ecb.europa.eu/stats/eurofxref/eurofxref-hist.zip".

Definition stub_SINGLE_DAY_ECB_URL : string :=
  "https://www.ecb.europa.eu/stats/eurofxref/eurofxref.zip".

(** A provider whose construction ends as [built arg] and whose
    conversions end as [answer amount currency new_currency date]. *)
Definition stub_provider
           (built : pyarg -> outcome pyarg)
           (answer : Q -> string -> string -> option date -> outcome Q)
  : currency_converter Q pyarg :=
  {| ECB_URL := stub_ECB_URL;
     SINGLE_DAY_ECB_URL := stub_SINGLE_DAY_ECB_URL;
     CurrencyConverter := built;
     CurrencyConverter_convert := fun _ => answer |}.

(** A provider that multiplies by a rate depending on the pair and date. *)
Definition rate_provider (rate : string -> string -> option date -> Q)
  : currency_converter Q pyarg :=
  stub_provider (fun arg => Normal arg)
                (fun x cur new_cur on => Normal (x * rate cur new_cur on)%Q).

(** EUR to USD at 27/25 and back at 25/27, every other pair at 1. *)
Definition eur_usd_rate (cur new_cur : string) (on : option date) : Q :=
  if String.eqb cur "EUR" && String.eqb new_cur "USD" then 27 # 25
  else if String.eqb cur "USD" && String.eqb new_cur "EUR" then 25 # 27
  else 1.

(** A provider that answers 108 to every conversion. *)
Definition provider_108 : currency_converter Q pyarg :=
  stub_provider (fun arg => Normal arg) (fun _ _ _ _ => Normal (108 # 1)).


Definition ValueError (msg : string) : exn := mkexn true (StrReturns msg).

Definition TypeError (msg : string) : exn := mkexn true (StrReturns msg).

(** An instance of [Exception] whose [__str__] raises a [TypeError]. *)
Definition Unprintable : exn :=
  mkexn true (StrRaises (TypeError "__str__ returned non-string")).

(** A provider whose constructor raises [e]. *)
Definition unbuildable_provider (e : exn) : currency_converter Q pyarg :=
  stub_provider (fun _ => Raised e) (fun x _ _ _ => Normal x).

(** A provider whose conversions raise [e]. *)
Definition unconvertible_provider (e : exn) : currency_converter Q pyarg :=
  stub_provider (fun arg => Normal arg) (fun _ _ _ _ => Raised e).

Definition tools_with (dc : string) : Tools :=
  {| valves := {| default_currency := dc |} |}.

Definition start (dc : string) : state Q pyarg :=
  {| self := tools_with dc; calls := [] |}.

Definition jan_2_2020 : date := {| year := 2020; month := 1; day := 2 |}.





(** ** Running [convert] *)

Ltac run_convert :=
  unfold convert, bind, try_except, get_valves, ret, py_str,
    new_CurrencyConverter, call_convert; cbn [fst snd].

Section Run.

Variables number handle : Type.
Variable lib : currency_converter number handle.
Implicit Types (s : state number handle) (date : option date).

Lemma convert_unfold direction source_amount a b date s :
  convert lib direction source_amount a b date s =
  match resolve_b (valves (self s)) b with
  | inl msg => (Normal (PyStr msg), s)
  | inr b' => convert_resolved lib direction source_amount a b' date s
  end.
Proof.
  unfold convert_resolved, except_return. run_convert.
  destruct (resolve_b (valves (self s)) b) as [msg | b']; [reflexivity |].
  destruct (CurrencyConverter lib (constructor_arg lib date)) as [c | e]; cbn.
  - destruct (resolve_codes direction a b') as [src tgt]; cbn.
    destruct (CurrencyConverter_convert lib c source_amount src tgt date)
      as [x | e]; cbn; [reflexivity |].
    destruct (is_Exception e); [destruct (exn_str e) |]; reflexivity.
  - destruct (is_Exception e); [destruct (exn_str e) |]; reflexivity.
Qed.

Lemma snd_except_return (msg : string) (e : exn) s :
  snd (except_return msg e s) = s.
Proof.
  unfold except_return.
  destruct (is_Exception e); [destruct (exn_str e) |]; reflexivity.
Qed.

Lemma self_log (c : call number handle) s : self (log c s) = self s.
Proof. reflexivity. Qed.

Lemma calls_log (c : call number handle) s : calls (log c s) = (calls s ++ [c])%list.
Proof. reflexivity. Qed.

Lemma calls_convert_resolved direction source_amount a b' date s :
  calls (snd (convert_resolved lib direction source_amount a b' date s)) =
  (calls s ++ calls_made lib direction source_amount a b' date)%list.
Proof.
  unfold convert_resolved, calls_made.
  destruct (CurrencyConverter lib (constructor_arg lib date)) as [c | e].
  - cbv zeta.
    destruct (CurrencyConverter_convert lib c source_amount _ _ date)
      as [x | e]; [cbn [snd] | rewrite snd_except_return];
      rewrite !calls_log, <- app_assoc; reflexivity.
  - rewrite snd_except_return, calls_log; reflexivity.
Qed.

Lemma self_convert_resolved direction source_amount a b' date s :
  self (snd (convert_resolved lib direction source_amount a b' date s)) =
  self s.
Proof.
  unfold convert_resolved.
  destruct (CurrencyConverter lib (constructor_arg lib date)) as [c | e].
  - cbv zeta.
    destruct (CurrencyConverter_convert lib c source_amount _ _ date)
      as [x | e]; [| rewrite snd_except_return]; reflexivity.
  - rewrite snd_except_return; reflexivity.
Qed.

Lemma fst_except_return (msg : string) (e : exn) s s' :
  fst (except_return msg e s) = fst (except_return msg e s').
Proof.
  unfold except_return.
  destruct (is_Exception e); [destruct (exn_str e) |]; reflexivity.
Qed.

Lemma except_return_cases (msg : string) (e : exn) s :
  (is_Exception e = false /\ except_return msg e s = (Raised e, s))
  \/ (is_Exception e = true
      /\ exists cause, exn_str e = Normal cause
                       /\ except_return msg e s =
                          (Normal (PyStr (msg ++ cause)), s))
  \/ (is_Exception e = true
      /\ exists e', exn_str e = Raised e'
                    /\ except_return msg e s = (Raised e', s)).
Proof.
  unfold except_return.
  destruct (is_Exception e); [| now left].
  right. destruct (exn_str e) as [cause | e'].
  - left. split; [reflexivity |]. exists cause. now split.
  - right. split; [reflexivity |]. exists e'. now split.
Qed.

Lemma resolve_codes_A_TO_B (a b' : string) :
  resolve_codes A_TO_B a b' = (a, b').
Proof. reflexivity. Qed.

Lemma resolve_codes_B_TO_A (a b' : string) :
  resolve_codes B_TO_A a b' = (b', a).
Proof. reflexivity. Qed.



Lemma init_failed_is_error (cause : string) :
  starts_with_Error (init_failed_msg ++ cause) = true.
Proof. reflexivity. Qed.

Lemma convert_failed_is_error (cause : string) :
  starts_with_Error (convert_failed_msg ++ cause) = true.
Proof. reflexivity. Qed.

Lemma init_failed_not_no_default (cause : string) :
  init_failed_msg ++ cause <> no_default_msg.
Proof. cbn. discriminate. Qed.

Lemma convert_failed_not_no_default (cause : string) :
  convert_failed_msg ++ cause <> no_default_msg.
Proof. cbn. discriminate. Qed.

Lemma except_return_string (msg : string) (e : exn) s (str : string) :
  fst (except_return msg e s) = Normal (PyStr str) ->
  is_Exception e = true
  /\ exists cause, exn_str e = Normal cause /\ str = msg ++ cause.
Proof.
  destruct (except_return_cases msg e s)
    as [[_ H] | [[He (cause & Hs & H)] | [_ (e' & _ & H)]]];
    rewrite H; cbn [fst]; try discriminate.
  intros [= <-]. split; [assumption |]. exists cause. now split.
Qed.

Lemma except_return_raised (msg : string) (e : exn) s (e' : exn) :
  fst (except_return msg e s) = Raised e' ->
  (is_Exception e = false /\ e' = e)
  \/ (is_Exception e = true /\ exn_str e = Raised e').
Proof.
  destruct (except_return_cases msg e s)
    as [[He H] | [[_ (cause & _ & H)] | [He (e1 & Hs & H)]]];
    rewrite H; cbn [fst]; try discriminate;
    intros [= <-]; [left | right]; now split.
Qed.

Lemma except_return_number (msg : string) (e : exn) s (x : number) :
  fst (except_return msg e s) <> Normal (PyNum x).
Proof.
  destruct (except_return_cases msg e s)
    as [[_ H] | [[_ (cause & _ & H)] | [_ (e' & _ & H)]]];
    rewrite H; discriminate.
Qed.

End Run.

(** ** Properties of [Tools.convert] *)

Section Properties.

Variables number handle : Type.
Variable lib : currency_converter number handle.
Implicit Types (s : state number handle) (date : option date)
         (direction : Direction) (source_amount : number).

(** C3: when [b_currency_code] is absent and [default_currency] is the
    empty string, the call returns exactly the "no default currency"
    error string and leaves the state as it was: the call log is
    unchanged, so no Rate Provider was constructed and no rate was
    looked up. *)
Theorem convert_no_default_currency direction source_amount a date s :
  default_currency (valves (self s)) = "" ->
  convert lib direction source_amount a None date s =
    (Normal (PyStr "Error: No default currency set. Either set a default currency or specify two currency codes."), s)
  /\ calls (snd (convert lib direction source_amount a None date s)) = calls s.
Proof.
  intros Hdc. rewrite convert_unfold. cbn. rewrite Hdc. cbn. split; reflexivity.
Qed.

(** C4: in a call that reaches the conversion step (the B code resolves
    to [b'] and the provider is constructed as [c]), the conversion call
    made on the provider has source [a] and target [b'] for [A_TO_B],
    and source [b'] and target [a] for [B_TO_A]. *)
Theorem convert_direction_codes direction source_amount a b date s b' c :
  resolve_b (valves (self s)) b = inr b' ->
  CurrencyConverter lib (constructor_arg lib date) = Normal c ->
  calls (snd (convert lib direction source_amount a b date s)) =
    (calls s ++
     [Construct (constructor_arg lib date);
      match direction with
      | A_TO_B => Convert c source_amount a b' date
      | B_TO_A => Convert c source_amount b' a date
      end])%list.
Proof.
  intros Hb Hc.
  rewrite convert_unfold, Hb, calls_convert_resolved.
  unfold calls_made. rewrite Hc.
  destruct direction; reflexivity.
Qed.

(** C8: on every path (early error return, construction failure,
    conversion failure, success, and an exception that escapes), the
    [default_currency] of the [Tools] object after the call is the one
    it had before the call. *)
Theorem convert_preserves_default_currency direction source_amount a b date s :
  default_currency
    (valves (self (snd (convert lib direction source_amount a b date s)))) =
  default_currency (valves (self s)).
Proof.
  rewrite convert_unfold.
  destruct (resolve_b (valves (self s)) b) as [msg | b'].
  - reflexivity.
  - now rewrite self_convert_resolved.
Qed.

(** C10: when [b_currency_code] is supplied, two runs that differ only
    in [default_currency] end with the same result, and make the same
    calls into the provider. *)
Theorem convert_independent_of_default direction source_amount a b date
        (dc1 dc2 : string) (made : list (call number handle)) :
  fst (convert lib direction source_amount a (Some b) date
               (mkstate (tools_with dc1) made)) =
  fst (convert lib direction source_amount a (Some b) date
               (mkstate (tools_with dc2) made))
  /\ calls (snd (convert lib direction source_amount a (Some b) date
                         (mkstate (tools_with dc1) made))) =
     calls (snd (convert lib direction source_amount a (Some b) date
                         (mkstate (tools_with dc2) made))).
Proof.
  rewrite !convert_unfold. cbn [resolve_b]. split.
  - unfold convert_resolved.
    destruct (CurrencyConverter lib (constructor_arg lib date)) as [c | e].
    + cbv zeta.
      destruct (CurrencyConverter_convert lib c source_amount _ _ date)
        as [x | e]; [reflexivity | apply fst_except_return].
    + apply fst_except_return.
  - now rewrite !calls_convert_resolved.
Qed.

(** C9: when [b_currency_code] is supplied as the empty string, whatever
    [default_currency] holds, the call does not end with the
    missing-default error, and the conversion call it makes on the
    provider it constructed carries the empty string itself as the B
    code (target for [A_TO_B], source for [B_TO_A]). *)
Theorem convert_empty_b_forwarded direction source_amount a date s :
  fst (convert lib direction source_amount a (Some "") date s) <>
    Normal (PyStr no_default_msg)
  /\ calls (snd (convert lib direction source_amount a (Some "") date s)) =
     (calls s ++
      Construct (constructor_arg lib date) ::
      match CurrencyConverter lib (constructor_arg lib date) with
      | Normal c =>
          [match direction with
           | A_TO_B => Convert c source_amount a "" date
           | B_TO_A => Convert c source_amount "" a date
           end]
      | Raised _ => []
      end)%list.
Proof.
  rewrite convert_unfold. cbn [resolve_b]. split.
  - unfold convert_resolved.
    destruct (CurrencyConverter lib (constructor_arg lib date)) as [c | e].
    + cbv zeta.
      destruct (CurrencyConverter_convert lib c source_amount _ _ date)
        as [x | e]; [discriminate |].
      intros H. apply except_return_string in H as (_ & cause & _ & H).
      now apply (convert_failed_not_no_default cause).
    + intros H. apply except_return_string in H as (_ & cause & _ & H).
      now apply (init_failed_not_no_default cause).
  - rewrite calls_convert_resolved. unfold calls_made.
    destruct (CurrencyConverter lib (constructor_arg lib date));
      destruct direction; reflexivity.
Qed.

(** C7: a freshly constructed [Tools] has [default_currency] equal to the
    empty string, and assigning any string to [default_currency]
    succeeds and stores that very string. *)
Theorem fresh_tools_default_currency :
  default_currency (valves Tools_init) = ""
  /\ forall (v : string) s,
      fst (set_default_currency v s) = Normal tt
      /\ default_currency (valves (self (snd (set_default_currency v s)))) = v.
Proof. split; [reflexivity | intros v s; split; reflexivity]. Qed.

(** C1 (what the code does): in a call with no date whose provider is
    constructed and whose conversion succeeds with [x], the value
    returned is the provider's number [x] itself, unrounded, and is not
    a string. *)
Theorem convert_latest_returns_number direction source_amount a b s b' c x :
  resolve_b (valves (self s)) b = inr b' ->
  CurrencyConverter lib (constructor_arg lib None) = Normal c ->
  CurrencyConverter_convert lib c source_amount
    (fst (resolve_codes direction a b'))
    (snd (resolve_codes direction a b')) None = Normal x ->
  fst (convert lib direction source_amount a b None s) = Normal (PyNum x)
  /\ forall str : string,
      fst (convert lib direction source_amount a b None s) <>
      Normal (PyStr str).
Proof.
  intros Hb Hc Hx. rewrite convert_unfold, Hb. unfold convert_resolved.
  rewrite Hc. cbv zeta. rewrite Hx. cbn [fst].
  split; [reflexivity | discriminate].
Qed.

(** C2 (what the code does): in a call with a date [d], the constructor
    of the provider is called with the date object [d] itself as its
    argument, which is neither the single-day feed nor [ECB_URL], the
    full historical feed; the conversion call, when the constructor
    returned, carries the same [d]. *)
Theorem convert_dated_constructor_argument direction source_amount a b d s b' :
  resolve_b (valves (self s)) b = inr b' ->
  calls (snd (convert lib direction source_amount a b (Some d) s)) =
    (calls s ++
     Construct (ArgDate d) ::
     match CurrencyConverter lib (ArgDate d) with
     | Normal c =>
         [Convert c source_amount
                  (fst (resolve_codes direction a b'))
                  (snd (resolve_codes direction a b')) (Some d)]
     | Raised _ => []
     end)%list
  /\ @Construct number handle (ArgDate d) <> Construct (ArgStr (ECB_URL lib))
  /\ @Construct number handle (ArgDate d) <>
     Construct (ArgStr (SINGLE_DAY_ECB_URL lib)).
Proof.
  intros Hb. rewrite convert_unfold, Hb, calls_convert_resolved.
  repeat split; discriminate.
Qed.


End Properties.

(** ** Round trip through an exact provider *)


(** ** Concrete runs *)

Lemma convert_no_default_currency_witness :
  default_currency (valves (self (start ""))) = ""
  /\ convert provider_108 A_TO_B (100 # 1) "EUR" None None (start "") =
     (Normal (PyStr "Error: No default currency set. Either set a default currency or specify two currency codes."),
      start "")
  /\ calls (snd (convert provider_108 A_TO_B (100 # 1) "EUR" None None
                         (start ""))) = [].
Proof.
  split; [reflexivity |].
  apply (convert_no_default_currency Q pyarg provider_108 A_TO_B (100 # 1)
           "EUR" None (start "")).
  reflexivity.
Defined.

Lemma convert_direction_codes_witness :
  calls (snd (convert (rate_provider eur_usd_rate) B_TO_A (100 # 1) "EUR"
                      (Some "USD") None (start ""))) =
  [Construct (ArgStr stub_SINGLE_DAY_ECB_URL);
   Convert (ArgStr stub_SINGLE_DAY_ECB_URL) (100 # 1) "USD" "EUR" None].
Proof.
  apply (convert_direction_codes Q pyarg (rate_provider eur_usd_rate) B_TO_A
           (100 # 1) "EUR" (Some "USD") None (start "") "USD"
           (ArgStr stub_SINGLE_DAY_ECB_URL)); reflexivity.
Defined.

Lemma convert_latest_returns_number_witness :
  fst (convert provider_108 A_TO_B (100 # 1) "EUR" None None (start "USD")) =
    Normal (PyNum (108 # 1))
  /\ forall str : string,
      fst (convert provider_108 A_TO_B (100 # 1) "EUR" None None
                   (start "USD")) <> Normal (PyStr str).
Proof.
  apply (convert_latest_returns_number Q pyarg provider_108 A_TO_B (100 # 1)
           "EUR" None (start "USD") "USD" (ArgStr stub_SINGLE_DAY_ECB_URL)
           (108 # 1)); reflexivity.
Defined.

Lemma convert_dated_constructor_argument_witness :
  calls (snd (convert (rate_provider eur_usd_rate) A_TO_B (100 # 1) "EUR"
                      (Some "USD") (Some jan_2_2020) (start ""))) =
    [Construct (ArgDate jan_2_2020);
     Convert (ArgDate jan_2_2020) (100 # 1) "EUR" "USD" (Some jan_2_2020)]
  /\ @Construct Q pyarg (ArgDate jan_2_2020) <>
     Construct (ArgStr stub_ECB_URL)
  /\ @Construct Q pyarg (ArgDate jan_2_2020) <>
     Construct (ArgStr stub_SINGLE_DAY_ECB_URL).
Proof.
  apply (convert_dated_constructor_argument Q pyarg
           (rate_provider eur_usd_rate) A_TO_B (100 # 1) "EUR" (Some "USD")
           jan_2_2020 (start "") "USD").
  reflexivity.
Defined.






(** ** Further properties of [Tools.convert] *)

Section Further.

Variables number handle : Type.
Variable lib : currency_converter number handle.
Implicit Types (s : state number handle) (date : option date)
         (direction : Direction) (source_amount : number).

Lemma convert_self direction source_amount a b date s :
  self (snd (convert lib direction source_amount a b date s)) = self s.
Proof.
  rewrite convert_unfold.
  destruct (resolve_b (valves (self s)) b) as [msg | b'];
    [reflexivity | apply self_convert_resolved].
Qed.

Lemma convert_calls direction source_amount a b date s b' :
  resolve_b (valves (self s)) b = inr b' ->
  calls (snd (convert lib direction source_amount a b date s)) =
  (calls s ++ calls_made lib direction source_amount a b' date)%list.
Proof.
  intros Hb. rewrite convert_unfold, Hb. apply calls_convert_resolved.
Qed.

(** X1 (lines 88-91): when [b_currency_code] is omitted and a default
    currency is configured, the call runs exactly as if the default had
    been passed as [b_currency_code]: same result, same state, same
    provider calls.  The default is used as it is stored. *)
Theorem convert_default_substituted direction source_amount a date s :
  default_currency (valves (self s)) <> "" ->
  convert lib direction source_amount a None date s =
  convert lib direction source_amount a
          (Some (default_currency (valves (self s)))) date s.
Proof.
  intros Hdc. rewrite !convert_unfold. cbn [resolve_b].
  destruct (String.eqb_spec (default_currency (valves (self s))) "")
    as [Heq | Hne]; [contradiction | reflexivity].
Qed.

(** X2 (lines 94-95, 112-113): in a call without a date the provider is
    constructed on [SINGLE_DAY_ECB_URL], and the conversion call made on
    it carries no date. *)
Theorem convert_latest_mode direction source_amount a b s b' :
  resolve_b (valves (self s)) b = inr b' ->
  calls (snd (convert lib direction source_amount a b None s)) =
    (calls s ++
     Construct (ArgStr (SINGLE_DAY_ECB_URL lib)) ::
     match CurrencyConverter lib (ArgStr (SINGLE_DAY_ECB_URL lib)) with
     | Normal c =>
         [Convert c source_amount
                  (fst (resolve_codes direction a b'))
                  (snd (resolve_codes direction a b')) None]
     | Raised _ => []
     end)%list.
Proof. intros Hb. now rewrite (convert_calls _ _ _ _ _ _ _ Hb). Qed.

(** X3 (lines 88-119): a call only appends to the log of provider calls,
    and appends nothing, or one constructor call, or one constructor call
    followed by one conversion call on the provider that constructor
    returned, for the amount and date of the call: no retry, no second
    provider, no conversion without a constructed provider. *)
Theorem convert_calls_shape direction source_amount a b date s :
  exists extra : list (call number handle),
    calls (snd (convert lib direction source_amount a b date s)) =
      (calls s ++ extra)%list
    /\ (extra = []
        \/ extra = [Construct (constructor_arg lib date)]
        \/ exists c cur new_cur,
            CurrencyConverter lib (constructor_arg lib date) = Normal c
            /\ extra = [Construct (constructor_arg lib date);
                        Convert c source_amount cur new_cur date]).
Proof.
  destruct (resolve_b (valves (self s)) b) as [msg | b'] eqn:Hb.
  - exists []. rewrite convert_unfold, Hb. cbn [snd].
    split; [now rewrite app_nil_r | now left].
  - exists (calls_made lib direction source_amount a b' date).
    split; [now apply convert_calls |].
    unfold calls_made.
    destruct (CurrencyConverter lib (constructor_arg lib date)) as [c | e].
    + right; right. exists c. do 2 eexists. split; reflexivity.
    + right; left. reflexivity.
Qed.

(** X4 (lines 93-102): when the constructor raises, whatever it raises,
    the call has made that one constructor call and no conversion call. *)
Theorem convert_failed_construction_stops direction source_amount a b date s b' e :
  resolve_b (valves (self s)) b = inr b' ->
  CurrencyConverter lib (constructor_arg lib date) = Raised e ->
  calls (snd (convert lib direction source_amount a b date s)) =
    (calls s ++ [Construct (constructor_arg lib date)])%list.
Proof.
  intros Hb Hc. rewrite (convert_calls _ _ _ _ _ _ _ Hb).
  unfold calls_made. now rewrite Hc.
Qed.

(** X5 (lines 103-110): swapping the two codes and flipping the direction
    is the same call: [A_TO_B] on [(a, b)] and [B_TO_A] on [(b, a)] end
    with the same result and the same state. *)
Theorem convert_direction_swap source_amount a b date s :
  convert lib A_TO_B source_amount a (Some b) date s =
  convert lib B_TO_A source_amount b (Some a) date s.
Proof.
  rewrite !convert_unfold. cbn [resolve_b]. unfold convert_resolved.
  now rewrite resolve_codes_A_TO_B, resolve_codes_B_TO_A.
Qed.

(** X6 (lines 90, 99-102, 117-119): whenever the call returns a string,
    that string starts with "Error:". *)
Theorem convert_string_is_error direction source_amount a b date s str :
  fst (convert lib direction source_amount a b date s) = Normal (PyStr str) ->
  starts_with_Error str = true.
Proof.
  rewrite convert_unfold.
  destruct (resolve_b (valves (self s)) b) as [msg | b'] eqn:Hb.
  - cbn [fst]. intros [= <-]. unfold resolve_b in Hb.
    destruct b as [b0 |]; [discriminate |].
    destruct (String.eqb (default_currency (valves (self s))) "");
      [| discriminate].
    injection Hb as <-. reflexivity.
  - unfold convert_resolved.
    destruct (CurrencyConverter lib (constructor_arg lib date)) as [c | e].
    + cbv zeta.
      destruct (CurrencyConverter_convert lib c source_amount _ _ date)
        as [x | e]; [discriminate |].
      intros H. apply except_return_string in H as (_ & cause & _ & ->).
      apply convert_failed_is_error.
    + intros H. apply except_return_string in H as (_ & cause & _ & ->).
      apply init_failed_is_error.
Qed.

(** X7 (lines 98-102, 116-119): an exception leaves the call only after
    the provider's constructor or conversion raised some [e], and it is
    either [e] itself, [e] not being an instance of [Exception], or what
    [str(e)] raised inside the handler that caught [e]. *)
Theorem convert_raises_only_uncaught direction source_amount a b date s e' :
  fst (convert lib direction source_amount a b date s) = Raised e' ->
  exists e,
    (CurrencyConverter lib (constructor_arg lib date) = Raised e
     \/ exists b' c,
         resolve_b (valves (self s)) b = inr b'
         /\ CurrencyConverter lib (constructor_arg lib date) = Normal c
         /\ CurrencyConverter_convert lib c source_amount
              (fst (resolve_codes direction a b'))
              (snd (resolve_codes direction a b')) date = Raised e)
    /\ ((is_Exception e = false /\ e' = e)
        \/ (is_Exception e = true /\ exn_str e = Raised e')).
Proof.
  rewrite convert_unfold.
  destruct (resolve_b (valves (self s)) b) as [msg | b'];
    [discriminate |].
  unfold convert_resolved.
  destruct (CurrencyConverter lib (constructor_arg lib date))
    as [c | e] eqn:Hc.
  - cbv zeta.
    destruct (CurrencyConverter_convert lib c source_amount _ _ date)
      as [x | e] eqn:Hx; [discriminate |].
    intros H. exists e. split.
    + right. exists b', c. repeat split. assumption.
    + now apply except_return_raised in H.
  - intros H. exists e. split; [now left |].
    now apply except_return_raised in H.
Qed.

(** X8 (lines 88-119): a returned string always reports a real failure,
    and names it: either [b_currency_code] was omitted with no default
    configured, or the constructor raised [e] and the string is the
    initialisation message followed by what [str(e)] returned, or the
    conversion raised [e] and the string is the conversion message
    followed by what [str(e)] returned. *)
Theorem convert_string_reports_failure direction source_amount a b date s str :
  fst (convert lib direction source_amount a b date s) = Normal (PyStr str) ->
  (b = None /\ default_currency (valves (self s)) = ""
   /\ str = no_default_msg)
  \/ (exists e cause,
         CurrencyConverter lib (constructor_arg lib date) = Raised e
         /\ exn_str e = Normal cause
         /\ str = init_failed_msg ++ cause)
  \/ (exists b' c e cause,
         resolve_b (valves (self s)) b = inr b'
         /\ CurrencyConverter lib (constructor_arg lib date) = Normal c
         /\ CurrencyConverter_convert lib c source_amount
              (fst (resolve_codes direction a b'))
              (snd (resolve_codes direction a b')) date = Raised e
         /\ exn_str e = Normal cause
         /\ str = convert_failed_msg ++ cause).
Proof.
  rewrite convert_unfold.
  destruct (resolve_b (valves (self s)) b) as [msg | b'] eqn:Hb.
  - cbn [fst]. intros [= <-]. left. unfold resolve_b in Hb.
    destruct b as [b0 |]; [discriminate |].
    destruct (String.eqb_spec (default_currency (valves (self s))) "")
      as [Heq | Hne]; [| discriminate].
    injection Hb as <-. repeat split. assumption.
  - unfold convert_resolved.
    destruct (CurrencyConverter lib (constructor_arg lib date))
      as [c | e] eqn:Hc.
    + cbv zeta.
      destruct (CurrencyConverter_convert lib c source_amount _ _ date)
        as [x | e] eqn:Hx; [discriminate |].
      intros H. apply except_return_string in H as (_ & cause & Hs & ->).
      right; right. exists b', c, e, cause. repeat split; assumption.
    + intros H. apply except_return_string in H as (_ & cause & Hs & ->).
      right; left. exists e, cause. repeat split; assumption.
Qed.

(** X9 (lines 111-115): a number is returned only when the provider was
    constructed and its conversion of [source_amount] between the resolved
    codes returned that very number. *)
Theorem convert_number_is_providers direction source_amount a b date s x :
  fst (convert lib direction source_amount a b date s) = Normal (PyNum x) ->
  exists b' c,
    resolve_b (valves (self s)) b = inr b'
    /\ CurrencyConverter lib (constructor_arg lib date) = Normal c
    /\ CurrencyConverter_convert lib c source_amount
         (fst (resolve_codes direction a b'))
         (snd (resolve_codes direction a b')) date = Normal x.
Proof.
  rewrite convert_unfold.
  destruct (resolve_b (valves (self s)) b) as [msg | b'];
    [discriminate |].
  unfold convert_resolved.
  destruct (CurrencyConverter lib (constructor_arg lib date))
    as [c | e] eqn:Hc.
  - cbv zeta.
    destruct (CurrencyConverter_convert lib c source_amount _ _ date)
      as [y | e] eqn:Hx.
    + cbn [fst]. intros [= <-]. exists b', c. repeat split. assumption.
    + intros H. now apply except_return_number in H.
  - intros H. now apply except_return_number in H.
Qed.

(** X10 (lines 90, 100, 118): the three kinds of error string never
    coincide, whatever the cause texts: a caller can tell from the string
    at which step the call failed. *)
Theorem error_messages_disjoint (cause1 cause2 : string) :
  init_failed_msg ++ cause1 <> convert_failed_msg ++ cause2
  /\ init_failed_msg ++ cause1 <> no_default_msg
  /\ convert_failed_msg ++ cause1 <> no_default_msg.
Proof.
  repeat split.
  - cbn. discriminate.
  - apply init_failed_not_no_default.
  - apply convert_failed_not_no_default.
Qed.

(** X11 (lines 53-61 with 88-90): on a [Tools] object as [__init__] leaves
    it, every call that omits [b_currency_code] returns the
    missing-default error and makes no provider call. *)
Theorem fresh_tools_need_both_codes direction source_amount a date
        (made : list (call number handle)) :
  convert lib direction source_amount a None date (mkstate Tools_init made) =
  (Normal (PyStr no_default_msg), mkstate Tools_init made).
Proof. rewrite convert_unfold. reflexivity. Qed.

(** X12 (lines 88-91): the default currency is read when the call is
    made: after [default_currency] is assigned a non-empty [v], a call
    that omits [b_currency_code] runs as the call with [v] as B code does,
    whatever the default was before. *)
Theorem convert_reads_default_at_call direction source_amount a date s v :
  v <> "" ->
  bind number handle (set_default_currency v)
       (fun _ : unit => convert lib direction source_amount a None date) s =
  convert lib direction source_amount a (Some v) date
          (mkstate (tools_with v) (calls s)).
Proof.
  intros Hv. unfold bind, set_default_currency.
  rewrite !convert_unfold. cbn [resolve_b self valves default_currency].
  destruct (String.eqb_spec v "") as [Heq | Hne];
    [contradiction | reflexivity].
Qed.

(** X13 (lines 92-97): nothing is kept from one call to the next: two
    calls in a row each make their own constructor call, each followed
    by the conversion call on the provider it returned (by nothing when
    it raised), the second call's after everything the first did. *)
Theorem convert_twice_constructs_twice
        direction1 source_amount1 a1 b1 date1
        direction2 source_amount2 a2 b2 date2 s b1' b2' :
  resolve_b (valves (self s)) b1 = inr b1' ->
  resolve_b (valves (self s)) b2 = inr b2' ->
  calls (snd (convert lib direction2 source_amount2 a2 b2 date2
                (snd (convert lib direction1 source_amount1 a1 b1 date1 s)))) =
    (calls s ++
     (Construct (constructor_arg lib date1) ::
      match CurrencyConverter lib (constructor_arg lib date1) with
      | Normal c1 =>
          [Convert c1 source_amount1
                   (fst (resolve_codes direction1 a1 b1'))
                   (snd (resolve_codes direction1 a1 b1')) date1]
      | Raised _ => []
      end) ++
     (Construct (constructor_arg lib date2) ::
      match CurrencyConverter lib (constructor_arg lib date2) with
      | Normal c2 =>
          [Convert c2 source_amount2
                   (fst (resolve_codes direction2 a2 b2'))
                   (snd (resolve_codes direction2 a2 b2')) date2]
      | Raised _ => []
      end))%list.
Proof.
  intros Hb1 Hb2.
  assert (Hb2' : resolve_b
            (valves (self (snd (convert lib direction1 source_amount1 a1 b1
                                        date1 s)))) b2 = inr b2')
    by now rewrite convert_self.
  rewrite (convert_calls _ _ _ _ _ _ _ Hb2'), (convert_calls _ _ _ _ _ _ _ Hb1).
  unfold calls_made. now rewrite <- app_assoc.
Qed.

End Further.

(** ** Concrete runs of the further properties *)

Lemma convert_default_substituted_witness :
  default_currency (valves (self (start "USD"))) <> ""
  /\ convert provider_108 B_TO_A (100 # 1) "EUR" None None (start "USD") =
     convert provider_108 B_TO_A (100 # 1) "EUR" (Some "USD") None
             (start "USD").
Proof.
  split; [discriminate |].
  apply (convert_default_substituted Q pyarg provider_108 B_TO_A (100 # 1)
           "EUR" None (start "USD")).
  discriminate.
Defined.

Lemma convert_latest_mode_witness :
  calls (snd (convert (rate_provider eur_usd_rate) A_TO_B (100 # 1) "EUR"
                      None None (start "USD"))) =
  [Construct (ArgStr stub_SINGLE_DAY_ECB_URL);
   Convert (ArgStr stub_SINGLE_DAY_ECB_URL) (100 # 1) "EUR" "USD" None].
Proof.
  apply (convert_latest_mode Q pyarg (rate_provider eur_usd_rate) A_TO_B
           (100 # 1) "EUR" None (start "USD") "USD").
  reflexivity.
Defined.

Lemma convert_failed_construction_stops_witness :
  calls (snd (convert (unbuildable_provider (ValueError "feed unreachable"))
                      A_TO_B (100 # 1) "EUR" (Some "USD") (Some jan_2_2020)
                      (start ""))) =
  [Construct (ArgDate jan_2_2020)].
Proof.
  apply (convert_failed_construction_stops Q pyarg
           (unbuildable_provider (ValueError "feed unreachable")) A_TO_B
           (100 # 1) "EUR" (Some "USD") (Some jan_2_2020) (start "") "USD"
           (ValueError "feed unreachable")); reflexivity.
Defined.

Lemma convert_string_is_error_witness :
  fst (convert (unbuildable_provider (ValueError "feed unreachable"))
               A_TO_B (100 # 1) "EUR" (Some "USD") None (start "")) =
    Normal (PyStr (init_failed_msg ++ "feed unreachable"))
  /\ starts_with_Error (init_failed_msg ++ "feed unreachable") = true.
Proof.
  split; [reflexivity |].
  apply (convert_string_is_error Q pyarg
           (unbuildable_provider (ValueError "feed unreachable")) A_TO_B
           (100 # 1) "EUR" (Some "USD") None (start "")
           (init_failed_msg ++ "feed unreachable")).
  reflexivity.
Defined.

Lemma convert_raises_only_uncaught_witness :
  exists e,
    (CurrencyConverter (unconvertible_provider Unprintable)
       (constructor_arg (unconvertible_provider Unprintable) None) = Raised e
     \/ exists b' c,
         resolve_b (valves (self (start "USD"))) None = inr b'
         /\ CurrencyConverter (unconvertible_provider Unprintable)
              (constructor_arg (unconvertible_provider Unprintable) None) =
              Normal c
         /\ CurrencyConverter_convert (unconvertible_provider Unprintable) c
              (100 # 1)
              (fst (resolve_codes A_TO_B "EUR" b'))
              (snd (resolve_codes A_TO_B "EUR" b')) None = Raised e)
    /\ ((is_Exception e = false
         /\ TypeError "__str__ returned non-string" = e)
        \/ (is_Exception e = true
            /\ exn_str e = Raised (TypeError "__str__ returned non-string"))).
Proof.
  apply (convert_raises_only_uncaught Q pyarg
           (unconvertible_provider Unprintable) A_TO_B (100 # 1) "EUR"
           None None (start "USD") (TypeError "__str__ returned non-string")).
  reflexivity.
Defined.

Lemma convert_string_reports_failure_witness :
  (@None string = None /\ default_currency (valves (self (start "USD"))) = ""
   /\ convert_failed_msg ++ "unknown currency" = no_default_msg)
  \/ (exists e cause,
         CurrencyConverter
           (unconvertible_provider (ValueError "unknown currency"))
           (constructor_arg
              (unconvertible_provider (ValueError "unknown currency")) None) =
           Raised e
         /\ exn_str e = Normal cause
         /\ convert_failed_msg ++ "unknown currency" =
            init_failed_msg ++ cause)
  \/ (exists b' c e cause,
         resolve_b (valves (self (start "USD"))) None = inr b'
         /\ CurrencyConverter
              (unconvertible_provider (ValueError "unknown currency"))
              (constructor_arg
                 (unconvertible_provider (ValueError "unknown currency"))
                 None) = Normal c
         /\ CurrencyConverter_convert
              (unconvertible_provider (ValueError "unknown currency")) c
              (100 # 1)
              (fst (resolve_codes B_TO_A "XXX" b'))
              (snd (resolve_codes B_TO_A "XXX" b')) None = Raised e
         /\ exn_str e = Normal cause
         /\ convert_failed_msg ++ "unknown currency" =
            convert_failed_msg ++ cause).
Proof.
  apply (convert_string_reports_failure Q pyarg
           (unconvertible_provider (ValueError "unknown currency")) B_TO_A
           (100 # 1) "XXX" None None (start "USD")
           (convert_failed_msg ++ "unknown currency")).
  reflexivity.
Defined.

Lemma convert_number_is_providers_witness :
  exists b' c,
    resolve_b (valves (self (start "USD"))) None = inr b'
    /\ CurrencyConverter provider_108 (constructor_arg provider_108 None) =
       Normal c
    /\ CurrencyConverter_convert provider_108 c (100 # 1)
         (fst (resolve_codes A_TO_B "EUR" b'))
         (snd (resolve_codes A_TO_B "EUR" b')) None = Normal (108 # 1).
Proof.
  apply (convert_number_is_providers Q pyarg provider_108 A_TO_B (100 # 1)
           "EUR" None None (start "USD") (108 # 1)).
  reflexivity.
Defined.

Lemma convert_reads_default_at_call_witness :
  bind Q pyarg (set_default_currency "USD")
       (fun _ : unit => convert provider_108 A_TO_B (100 # 1) "EUR" None None)
       (start "") =
  convert provider_108 A_TO_B (100 # 1) "EUR" (Some "USD") None
          (mkstate (tools_with "USD") []).
Proof.
  apply (convert_reads_default_at_call Q pyarg provider_108 A_TO_B (100 # 1)
           "EUR" None (start "") "USD").
  discriminate.
Defined.

Lemma convert_twice_constructs_twice_witness :
  calls (snd (convert (rate_provider eur_usd_rate) B_TO_A (108 # 1) "EUR"
                None (Some jan_2_2020)
                (snd (convert (rate_provider eur_usd_rate) A_TO_B (100 # 1)
                              "EUR" (Some "USD") None (start "USD"))))) =
  [Construct (ArgStr stub_SINGLE_DAY_ECB_URL);
   Convert (ArgStr stub_SINGLE_DAY_ECB_URL) (100 # 1) "EUR" "USD" None;
   Construct (ArgDate jan_2_2020);
   Convert (ArgDate jan_2_2020) (108 # 1) "USD" "EUR" (Some jan_2_2020)].
Proof.
  apply (convert_twice_constructs_twice Q pyarg (rate_provider eur_usd_rate)
           A_TO_B (100 # 1) "EUR" (Some "USD") None
           B_TO_A (108 # 1) "EUR" None (Some jan_2_2020)
           (start "USD") "USD" "USD"); reflexivity.
Defined.
